(** * FatigueSet data preparation: zero-padding and stacking of EEG trials

    A shallow embedding of [01_data_preparation.py].  The script is meant to
    read one CSV file per trial, find the longest trial of a folder, pad
    every trial with zero rows up to that length, stack the padded trials
    into a 3D array and save one array per (band, intensity) folder.

    The text of the script breaks Python's indentation rule at two places:
    line 64, inside [find_max_length], and line 120, inside
    [process_fatigueset].  The embedding keeps this: the lines of the script
    are data, the indentation rule is a function on them, and a function
    whose [def] statement fails the rule raises IndentationError, as does
    the script as a whole.  What the two functions would do with their
    lines at the indentation of their blocks is given beside them, under
    names that end in [_reindented].

    NumPy arrays are modelled as a dtype, a shape and a flat row-major
    buffer, DataFrames as labelled columns with their dtypes, the file
    system as a finite map from paths to files together with the directory
    listings, and Python computations as a writer/exception monad: the
    lines printed to the standard output and then either a value or a
    raised exception.  A string is a Python str of code points below 256. *)

From Stdlib Require Import ZArith Ascii String.
From stdpp Require Import gmap strings list fin_maps.

Local Open Scope string_scope.
Local Open Scope list_scope.
Local Open Scope nat_scope.

(** ** Python computations *)

(** The exception classes this script can meet; all derive from
    [Exception]. *)
Inductive exn : Type :=
  | FileNotFoundError
  | NotADirectoryError
  | IsADirectoryError
  | ParserError
  | KeyError
  | IndexError
  | ValueError
  | OSError
  | IndentationError
  | UnicodeEncodeError.

Inductive res (A : Type) : Type :=
  | Ok (a : A)
  | Raise (e : exn).
Arguments Ok {A} a.
Arguments Raise {A} e.

(** What [print] writes, one constructor per [print] statement of the
    script, with the values interpolated in its f-string. *)
Inductive Event : Type :=
  | PErrorLoading (file_path : string) (e : exn)            (* line 38 *)
  | PScanning (n : nat) (base : string)                     (* line 68 *)
  | PMaxLength (max_length : Z)                             (* line 84 *)
  | PNoValidCsv (folder_path : string)                      (* line 104 *)
  | PStarting                                               (* line 112 *)
  | PProcessing (base : string)                             (* line 142 *)
  | PWarningNotFound (input_folder : string)                (* line 146 *)
  | PSuccess (shape : list nat) (output_path : string)      (* line 155 *)
  | PComplete                                               (* line 157 *)
  | PAllSaved (output_dir : string).                        (* line 158 *)

(** Printed lines, then the outcome. *)
Definition Py (A : Type) : Type := (list Event * res A)%type.

Definition ret {A} (a : A) : Py A := ([], Ok a).
Definition lift {A} (r : res A) : Py A := ([], r).

Definition bind {A B} (m : Py A) (k : A → Py B) : Py B :=
  match m with
  | (out, Ok a) => let '(out', r) := k a in (out ++ out', r)
  | (out, Raise e) => (out, Raise e)
  end.

(** [try: body except Exception as e: handler e] *)
Definition try_except {A} (body : Py A) (handler : exn → Py A) : Py A :=
  match body with
  | (out, Ok a) => (out, Ok a)
  | (out, Raise e) => let '(out', r) := handler e in (out ++ out', r)
  end.

Declare Scope py_scope.
Delimit Scope py_scope with py.
Notation "'let*' x ':=' m 'in' k" := (bind m (λ x, k))
  (at level 10, x name, m at level 100, k at level 200) : py_scope.
Local Open Scope py_scope.

(** ** Strings and paths *)

(** [s.endswith(suffix)] *)
Definition endswith (s suffix : string) : bool :=
  let n := String.length s in
  let m := String.length suffix in
  (m <=? n)%nat && String.eqb (substring (n - m) m s) suffix.

(** [c.lower()] on one character: the upper-case letters below 256 are
    A-Z and the letters from U+00C0 to U+00DE but the sign U+00D7; each
    has its lower-case form 32 code points further. *)
Definition lower_char (c : ascii) : ascii :=
  let n := nat_of_ascii c in
  if ((65 <=? n) && (n <=? 90)) || ((192 <=? n) && (n <=? 222) && negb (n =? 215))
  then ascii_of_nat (n + 32) else c.

(** [s.lower()] *)
Fixpoint lower (s : string) : string :=
  match s with
  | EmptyString => EmptyString
  | String c s' => String (lower_char c) (lower s')
  end.

(** [s.split(' ')[0]]: the part of [s] before its first space, all of [s]
    when it has none. *)
Fixpoint split_first (s : string) : string :=
  match s with
  | EmptyString => EmptyString
  | String c s' => if Ascii.eqb c " "%char then EmptyString
                   else String c (split_first s')
  end.

(** The last character of a string, if any. *)
Fixpoint last_char (s : string) : option ascii :=
  match s with
  | EmptyString => None
  | String c EmptyString => Some c
  | String _ s' => last_char s'
  end.

(** [os.path.join(a, b)] on POSIX. *)
Definition path_join (a b : string) : string :=
  match b with
  | String "/"%char _ => b
  | _ =>
    match last_char a with
    | None => b
    | Some "/"%char => a +:+ b
    | Some _ => a +:+ "/" +:+ b
    end
  end.

(** [os.path.split(p)], as a pair (head, tail): [tail] is what follows the
    last slash; [head] is what precedes it, without its trailing slashes
    unless it consists of slashes only. *)
Fixpoint split_last_slash (p : string) : option (string * string) :=
  match p with
  | EmptyString => None
  | String c p' =>
    match split_last_slash p' with
    | Some (h, t) => Some (String c h, t)
    | None => if Ascii.eqb c "/"%char then Some (String c EmptyString, p') else None
    end
  end.

Fixpoint all_slashes (s : string) : bool :=
  match s with
  | EmptyString => true
  | String c s' => Ascii.eqb c "/"%char && all_slashes s'
  end.

Fixpoint rstrip_slashes (s : string) : string :=
  match s with
  | EmptyString => EmptyString
  | String c s' =>
    let r := rstrip_slashes s' in
    match r with
    | EmptyString => if Ascii.eqb c "/"%char then EmptyString else String c EmptyString
    | _ => String c r
    end
  end.

Definition path_split (p : string) : string * string :=
  match split_last_slash p with
  | None => (EmptyString, p)
  | Some (h, t) => (if all_slashes h then h else rstrip_slashes h, t)
  end.

Definition dirname (p : string) : string := (path_split p).1.
Definition basename (p : string) : string := (path_split p).2.


(** ** The text of the script and Python's indentation rule *)

(** The logical lines of [01_data_preparation.py]: for each line that
    starts a statement, its number and the width of its indentation.
    Blank lines, lines that hold a comment only, and the lines that
    continue a string or a bracket opened before them (27-30, 43-48, 54,
    60-62, 65-66, 79-81, 132-134) start no statement and have no part in
    the rule. *)
Definition source_lines : list (nat * nat) :=
  [ (1, 0); (2, 0); (3, 0); (4, 0); (12, 0); (16, 0); (17, 0); (18, 4);
    (* load_csv_to_numpy *)
    (25, 0); (26, 4); (31, 4); (32, 8); (34, 8); (35, 12); (36, 8); (37, 4);
    (38, 8); (39, 8);
    (* pad_array *)
    (41, 0); (42, 4); (49, 4); (50, 4); (51, 8); (53, 8); (56, 4);
    (* find_max_length *)
    (58, 0); (59, 4); (63, 4); (64, 3); (67, 4); (68, 4); (70, 4); (71, 8);
    (72, 8); (73, 8); (74, 12); (75, 4);
    (* create_3d_array *)
    (77, 0); (78, 4); (83, 4); (84, 4); (87, 4); (88, 4); (91, 4); (92, 8);
    (93, 8); (95, 8); (96, 12); (97, 12); (101, 4); (102, 8); (103, 4);
    (104, 8); (105, 8);
    (* process_fatigueset *)
    (109, 0); (110, 4); (112, 4); (115, 4); (116, 4); (117, 4); (120, 3);
    (121, 8); (123, 12); (124, 12); (127, 12); (128, 12); (129, 12);
    (131, 12); (137, 4); (138, 8); (139, 8); (140, 8); (142, 8); (145, 8);
    (146, 12); (147, 12); (150, 8); (152, 8); (154, 12); (155, 12);
    (157, 4); (158, 4);
    (162, 0); (163, 4) ].

(** The stack of indentations after a line indented less than the top of
    the stack: the larger indentations are popped, and the indentation of
    the line must be the one that comes to the top; otherwise the line is
    an "unindent [that] does not match any outer indentation level". *)
Fixpoint unindent (n : nat) (stack : list nat) : option (list nat) :=
  match stack with
  | [] => None
  | top :: stack' =>
    if n <? top then unindent n stack'
    else if n =? top then Some stack
    else None
  end.

(** The stack after a logical line of indentation [n]: a larger
    indentation is pushed, an equal one changes nothing. *)
Definition indent (n : nat) (stack : list nat) : option (list nat) :=
  match stack with
  | [] => None
  | top :: _ => if top <? n then Some (n :: stack) else unindent n stack
  end.

(** The first line at which the tokenizer raises IndentationError, if
    any. *)
Fixpoint check_indentation (stack : list nat) (lines : list (nat * nat))
    : option nat :=
  match lines with
  | [] => None
  | (k, n) :: lines' =>
    match indent n stack with
    | None => Some k
    | Some stack' => check_indentation stack' lines'
    end
  end.

(** The logical lines of the script from one line to another. *)
Definition lines_between (first last : nat) : list (nat * nat) :=
  filter (λ l, first ≤ l.1 ≤ last) source_lines.

(** The line at which the compiler rejects the statements of the lines
    [first] to [last], the first of them at the left margin. *)
Definition indentation_error (first last : nat) : option nat :=
  check_indentation [0] (lines_between first last).

(** The lines with line [k] moved to the indentation [n]. *)
Definition reindent (k n : nat) (lines : list (nat * nat)) : list (nat * nat) :=
  (λ l, if l.1 =? k then (k, n) else l) <$> lines.

(** A function of the script whose [def] statement spans the lines
    [first] to [last].  When the lines break the indentation rule, the
    script does not compile, the function is never defined, and a use of
    it comes to the IndentationError of the compiler; otherwise a call
    runs the body. *)
Definition py_def {A} (first last : nat) (body : Py A) : Py A :=
  match indentation_error first last with
  | Some _ => lift (Raise IndentationError)
  | None => body
  end.

(** ** NumPy arrays *)

Section Arrays.

(** The numeric type of the cells and its zero.  The script only copies
    cells and writes zeros, so the cell type is left abstract. *)
Context {V : Type} (zero : V).

(** An n-dimensional array: its shape and its cells in row-major order. *)
Record ndarray : Type := mk_ndarray {
  shape : list nat;
  data : list V
}.

Definition size_of (sh : list nat) : nat := foldr Nat.mul 1 sh.

(** The buffer of a well-formed array has as many cells as its shape says. *)
Definition wf_array (a : ndarray) : Prop :=
  length (data a) = size_of (shape a).

(** [a.shape[0]] *)
Definition shape0 (a : ndarray) : res nat :=
  match shape a with
  | n :: _ => Ok n
  | [] => Raise IndexError
  end.

(** [a[i]] for an in-range index [i] along the first axis. *)
Definition subarray (a : ndarray) (i : nat) : option ndarray :=
  match shape a with
  | n :: sh =>
    if (i <? n)%nat
    then Some (mk_ndarray sh (take (size_of sh) (drop (i * size_of sh) (data a))))
    else None
  | [] => None
  end.

(** [a[i, j]] of a 2D array. *)
Definition cell (a : ndarray) (i j : nat) : option V :=
  match shape a with
  | [r; c] => if (i <? r)%nat && (j <? c)%nat then data a !! (i * c + j)%nat else None
  | _ => None
  end.

(** [np.zeros(sh)] in the cell type. *)
Definition zeros (sh : list nat) : ndarray :=
  mk_ndarray sh (replicate (size_of sh) zero).

(** [np.pad(a, ((0, after), (0, 0)), mode='constant', constant_values=0)]:
    [after] rows of zeros below a 2D array; a pad width of two pairs does
    not fit an array of another rank. *)
Definition np_pad_rows_after (a : ndarray) (after : nat) : res ndarray :=
  match shape a with
  | [r; c] => Ok (mk_ndarray [r + after; c] (data a ++ replicate (after * c) zero))
  | _ => Raise ValueError
  end.

Definition pad_array (array : ndarray) (target_length : Z) : Py ndarray :=
  let* current_length := lift (shape0 array) in
  if (Z.of_nat current_length <? target_length)%Z then
    let padding_needed := (target_length - Z.of_nat current_length)%Z in
    lift (np_pad_rows_after array (Z.to_nat padding_needed))
  else ret array.

End Arrays.

(** ** The libraries *)

(** What the script needs of the dtypes of NumPy and pandas: the cells of
    all dtypes are in one type [V], and a cell is read with the dtype of
    the array or of the column that holds it.  The dtypes are those that
    [pd.read_csv] gives the columns of a file (bool, int64, float64,
    object). *)
Class NumPy (V DT : Type) : Type := {
  (** the zero of a dtype *)
  zero_of : DT → V;
  (** a cell of the first dtype converted to the second *)
  astype : DT → DT → V → V;
  (** [np.result_type]: the dtype of an array made of arrays of these
      dtypes *)
  result_type : list DT → DT;
  (** the dtype pandas gives the array made of columns of these dtypes *)
  interleaved_dtype : list DT → DT;
  (** a conversion to the dtype a cell has changes nothing *)
  astype_same : ∀ d v, astype d d v = v;
  (** arrays of one dtype make an array of that dtype *)
  result_type_same : ∀ d l,
    l ≠ [] → Forall (λ d', d' = d) l → result_type l = d;
  (** columns of one dtype make an array of that dtype *)
  interleaved_dtype_same : ∀ d l,
    l ≠ [] → Forall (λ d', d' = d) l → interleaved_dtype l = d
}.

(** Whether the standard output can encode the text of a line: [print]
    raises UnicodeEncodeError on a text that its encoding does not hold. *)
Class Stdout : Type := {
  stdout_encodes : Event → bool
}.

(** ** Arrays with a dtype, DataFrames and the file system *)

Section Pipeline.

Context {V DT : Type} {numpy : NumPy V DT} {stdout : Stdout}.

(** [print(text)] *)
Definition print (ev : Event) : Py unit :=
  if stdout_encodes ev then ([ev], Ok tt) else ([], Raise UnicodeEncodeError).

(** A NumPy array: its dtype, and its shape and cells. *)
Record nparray : Type := mk_nparray {
  dtype : DT;
  values : ndarray (V:=V)
}.

(** The cells of an array converted to the dtype [d]. *)
Definition converted (d : DT) (a : nparray) : list V :=
  astype (dtype a) d <$> data (values a).

(** [np.stack(arrays, axis=0)]: the arrays one after the other along a new
    leading axis, their cells converted to the common dtype; raises on an
    empty list and on arrays of different shapes. *)
Definition np_stack (arrays : list nparray) : res nparray :=
  match arrays with
  | [] => Raise ValueError
  | a :: _ =>
    if bool_decide (Forall (λ b, shape (values b) = shape (values a)) arrays)
    then
      let d := result_type (dtype <$> arrays) in
      Ok (mk_nparray d
            (mk_ndarray (length arrays :: shape (values a))
                        (concat (converted d <$> arrays))))
    else Raise ValueError
  end.

(** [pad_array(array, target_length)] on an array with its dtype: the rows
    that [np.pad] adds hold the zero of the dtype, which the padded array
    keeps. *)
Definition pad_nparray (array : nparray) (target_length : Z) : Py nparray :=
  let* padded := pad_array (zero_of (dtype array)) (values array) target_length in
  ret (mk_nparray (dtype array) padded).

(** A column of a DataFrame: the NumPy dtype of its values, and its
    cells. *)
Record Series : Type := mk_Series {
  sdtype : DT;
  cells : list V
}.

(** A DataFrame: the length of its index and its columns in order, each a
    label and a column. *)
Record DataFrame : Type := mk_DataFrame {
  nrows : nat;
  cols : list (string * Series)
}.

(** [data.columns] *)
Definition columns (df : DataFrame) : list string := fst <$> cols df.

(** Every column of a DataFrame has one cell per index entry. *)
Definition wf_frame (df : DataFrame) : Prop :=
  Forall (λ c, length (cells c.2) = nrows df) (cols df).

(** [data.drop(columns=[label])]: all columns but those labelled [label];
    raises when no column has the label. *)
Definition drop_columns (df : DataFrame) (label : string) : res DataFrame :=
  if bool_decide (label ∈ columns df)
  then Ok (mk_DataFrame (nrows df) (filter (λ c, c.1 ≠ label) (cols df)))
  else Raise KeyError.

(** [data.to_numpy()]: a 2D array of the common dtype of the columns, one
    row per index entry, one column per DataFrame column, in the
    DataFrame's column order, each cell converted to that dtype. *)
Definition to_numpy (df : DataFrame) : nparray :=
  let d := interleaved_dtype ((λ c, sdtype c.2) <$> cols df) in
  mk_nparray d
    (mk_ndarray [nrows df; length (cols df)]
       (concat ((λ i, (λ c : string * Series,
                         astype (sdtype c.2) d
                           (default (zero_of (sdtype c.2)) (cells c.2 !! i)))
                      <$> cols df)
                  <$> seq 0 (nrows df)))).

(** A file, by what the script can do with it. *)
Inductive file : Type :=
  | CsvFile (df : DataFrame)   (* [pd.read_csv] parses it to [df] *)
  | BadFile (e : exn)          (* [pd.read_csv] raises [e] on it *)
  | NpyFile (a : nparray).     (* written by [np.save] *)

(** The file system: the entries of every directory in the order
    [os.listdir] enumerates them, and the files.  The empty path stands
    for the current directory. *)
Record World : Type := mk_World {
  dirs : gmap string (list string);
  files : gmap string file
}.

(** [os.path.exists(p)] *)
Definition path_exists (w : World) (p : string) : bool :=
  bool_decide (is_Some (dirs w !! p)) || bool_decide (is_Some (files w !! p)).

(** [os.listdir(p)] *)
Definition listdir (w : World) (p : string) : res (list string) :=
  match dirs w !! p with
  | Some names => Ok names
  | None => if bool_decide (is_Some (files w !! p))
            then Raise NotADirectoryError else Raise FileNotFoundError
  end.

(** [pd.read_csv(p)]; the bytes of a saved array are no CSV text. *)
Definition read_csv (w : World) (p : string) : res DataFrame :=
  match files w !! p with
  | Some (CsvFile df) => Ok df
  | Some (BadFile e) => Raise e
  | Some (NpyFile _) => Raise ValueError
  | None => if bool_decide (is_Some (dirs w !! p))
            then Raise IsADirectoryError else Raise FileNotFoundError
  end.

(** [np.save(p, a)] for a path [p] that ends in [.npy], as the paths of the
    script do: writes the file [p], which appears in the listing of its
    directory when it is new.  It raises IsADirectoryError when [p] is a
    directory, NotADirectoryError when the directory of [p] is a file and
    FileNotFoundError when it does not exist. *)
Definition np_save (w : World) (p : string) (a : nparray) : res World :=
  if bool_decide (is_Some (dirs w !! p)) then Raise IsADirectoryError else
  match dirs w !! dirname p with
  | Some names =>
    Ok (mk_World
          (<[dirname p := if bool_decide (basename p ∈ names) then names
                          else names ++ [basename p]]> (dirs w))
          (<[p := NpyFile a]> (files w)))
  | None =>
    if bool_decide (is_Some (files w !! dirname p)) then Raise NotADirectoryError
    else if bool_decide (dirname p = "")
    then Ok (mk_World (dirs w) (<[p := NpyFile a]> (files w)))
    else Raise FileNotFoundError
  end.

(** [os.makedirs(p)] for a path whose parent exists: a new empty directory,
    entered in the listing of its parent where the parent is listed. *)
Definition makedirs (w : World) (p : string) : World :=
  mk_World (<[p := []]> (alter (λ names, names ++ [basename p]) (dirname p) (dirs w)))
           (files w).

(** ** The script *)

Definition BASE_PATH : string := "data/fatigueset".
Definition OUTPUT_PATH : string := "processed_data".

(** Lines 17-18, run when the module is loaded. *)
Definition module_init (w : World) : World :=
  if negb (path_exists w OUTPUT_PATH) then makedirs w OUTPUT_PATH else w.

(** Lines 25-39. *)
Definition load_csv_to_numpy (w : World) (file_path : string) : Py (option nparray) :=
  try_except
    (let* data := lift (read_csv w file_path) in
     let* data :=
       if bool_decide ("Unnamed: 0" ∈ columns data)
       then lift (drop_columns data "Unnamed: 0")
       else ret data in
     ret (Some (to_numpy data)))
    (λ e,
     let* _ := print (PErrorLoading file_path e) in
     ret None).

(** [[f for f in os.listdir(folder_path) if f.endswith('.csv')]] *)
Definition csv_files (names : list string) : list string :=
  filter (λ f, endswith f ".csv") names.

(** The loop of lines 70-74. *)
Fixpoint find_max_length_loop (w : World) (folder_path : string)
    (files : list string) (max_length : Z) : Py Z :=
  match files with
  | [] => ret max_length
  | file :: files' =>
    let file_path := path_join folder_path file in
    let* array_2d := load_csv_to_numpy w file_path in
    let* max_length :=
      match array_2d with
      | Some a =>
        let* n := lift (shape0 (values a)) in
        ret (Z.max max_length (Z.of_nat n))
      | None => ret max_length
      end in
    find_max_length_loop w folder_path files' max_length
  end.

(** What lines 58-75 would define with the string of lines 64-66 at the
    indentation of the body, where it is a statement without effect. *)
Definition find_max_length_reindented (w : World) (folder_path : string) : Py Z :=
  let max_length := 0%Z in
  let* names := lift (listdir w folder_path) in
  let files := csv_files names in
  let* _ := print (PScanning (length files) (basename folder_path)) in
  find_max_length_loop w folder_path files max_length.

(** Lines 58-75, as they are. *)
Definition find_max_length (w : World) (folder_path : string) : Py Z :=
  py_def 58 75 (find_max_length_reindented w folder_path).

(** The loop of lines 91-97; [tqdm] draws its progress bar on the standard
    error stream and yields the files unchanged. *)
Fixpoint create_3d_array_loop (w : World) (folder_path : string)
    (files : list string) (max_length : Z) (array_list : list nparray)
    : Py (list nparray) :=
  match files with
  | [] => ret array_list
  | file :: files' =>
    let file_path := path_join folder_path file in
    let* array_2d := load_csv_to_numpy w file_path in
    let* array_list :=
      match array_2d with
      | Some a =>
        let* padded_array_2d := pad_nparray a max_length in
        ret (array_list ++ [padded_array_2d])
      | None => ret array_list
      end in
    create_3d_array_loop w folder_path files' max_length array_list
  end.

(** Lines 101-105: the stacking of the collected arrays. *)
Definition stack_array_list (folder_path : string) (array_list : list nparray)
    : Py (option nparray) :=
  match array_list with
  | _ :: _ =>
    let* array_3d := lift (np_stack array_list) in
    ret (Some array_3d)
  | [] =>
    let* _ := print (PNoValidCsv folder_path) in
    ret None
  end.

(** Lines 77-105; the call of line 83 is a call of [find_max_length] as it
    is. *)
Definition create_3d_array (w : World) (folder_path : string) : Py (option nparray) :=
  let* max_length := find_max_length w folder_path in
  let* _ := print (PMaxLength max_length) in
  let* names := lift (listdir w folder_path) in
  let files := csv_files names in
  let* array_list := create_3d_array_loop w folder_path files max_length [] in
  stack_array_list folder_path array_list.

(** An entry of [data_sets]. *)
Record data_set : Type := mk_data_set {
  input_path : string;
  output_name : string
}.

Definition bands : list string :=
  ["Raw EEG"; "Alpha EEG"; "Beta EEG"; "Gamma EEG"; "Delta EEG"; "Theta EEG"].
Definition intensities : list string :=
  ["Low Intensity"; "Medium Intensity"; "High Intensity"].

(** Lines 127 and 128. *)
Definition band_abbr (band : string) : string := split_first (lower band).
Definition intensity_abbr (intensity : string) : string :=
  split_first (lower intensity).

(** What the loop of lines 120-134 would build with line 120 at the
    indentation of the body. *)
Definition data_sets_reindented : list data_set :=
  band ← bands;
  intensity ← intensities;
  let folder_name := band +:+ " samples/" +:+ intensity in
  let input_folder := path_join BASE_PATH folder_name in
  let output_name :=
    "array_3D_" +:+ band_abbr band +:+ "_" +:+ intensity_abbr intensity +:+ ".npy" in
  [mk_data_set input_folder output_name].

(** The lines already printed, before the rest of a computation. *)
Definition printed (out : list Event) : Py unit := (out, Ok tt).

(** The body of the loop of lines 137-155 for one entry: the file system
    it leaves, what it prints and whether it raises.  Up to line 152
    nothing is written: the entry is left at [continue] or with no block,
    or it has a block to save. *)
Definition process_data_set (ds : data_set) (w : World) : World * Py unit :=
  let input_folder := input_path ds in
  let output_name := output_name ds in
  let output_path := path_join OUTPUT_PATH output_name in
  match
    let* _ := print (PProcessing (basename input_folder)) in
    if negb (path_exists w input_folder) then
      let* _ := print (PWarningNotFound input_folder) in
      ret None
    else create_3d_array w input_folder
  with
  | (out, Raise e) => (w, (out, Raise e))
  | (out, Ok None) => (w, (out, Ok tt))
  | (out, Ok (Some array_3d)) =>
    match np_save w output_path array_3d with
    | Raise e => (w, (out, Raise e))
    | Ok w' =>
      (w', let* _ := printed out in
           print (PSuccess (shape (values array_3d)) output_path))
    end
  end.

(** The loop of lines 137-155. *)
Fixpoint process_data_sets (l : list data_set) (w : World) : World * Py unit :=
  match l with
  | [] => (w, ret tt)
  | ds :: l' =>
    match process_data_set ds w with
    | (w1, (out1, Raise e)) => (w1, (out1, Raise e))
    | (w1, (out1, Ok _)) =>
      let '(w2, (out2, r)) := process_data_sets l' w1 in
      (w2, (out1 ++ out2, r))
    end
  end.

(** What lines 109-158 would define with line 120 at the indentation of
    the body. *)
Definition process_fatigueset_reindented (w : World) : World * Py unit :=
  match print PStarting with
  | (out, Raise e) => (w, (out, Raise e))
  | (out, Ok _) =>
    match process_data_sets data_sets_reindented w with
    | (w', (out', Raise e)) => (w', (out ++ out', Raise e))
    | (w', (out', Ok _)) =>
      (w', let* _ := printed (out ++ out') in
           let* _ := print PComplete in
           print (PAllSaved OUTPUT_PATH))
    end
  end.

(** Lines 109-158, as they are. *)
Definition process_fatigueset (w : World) : World * Py unit :=
  match indentation_error 109 158 with
  | Some _ => (w, lift (Raise IndentationError))
  | None => process_fatigueset_reindented w
  end.

(** Running the script: the compiler reads all of it before the first
    statement runs. *)
Definition main (w : World) : World * Py unit :=
  match indentation_error 1 164 with
  | Some _ => (w, lift (Raise IndentationError))
  | None => process_fatigueset (module_init w)
  end.

(** ** Notions used to state the properties *)

(** The DataFrame without the columns labelled ['Unnamed: 0']. *)
Definition without_index_column (df : DataFrame) : DataFrame :=
  mk_DataFrame (nrows df) (filter (λ c, c.1 ≠ "Unnamed: 0") (cols df)).

(** The tables of the files of a folder that [pd.read_csv] parses, as the
    loader returns them, in the order of the files. *)
Definition loaded_tables (w : World) (folder_path : string) (files : list string)
    : list nparray :=
  omap (λ file, match read_csv w (path_join folder_path file) with
                | Ok df => Some (to_numpy (without_index_column df))
                | Raise _ => None
                end) files.

(** The error lines of the files of a folder that [pd.read_csv] raises
    on, in the order of the files. *)
Definition error_lines (w : World) (folder_path : string) (files : list string)
    : list Event :=
  omap (λ file, match read_csv w (path_join folder_path file) with
                | Ok _ => None
                | Raise e => Some (PErrorLoading (path_join folder_path file) e)
                end) files.

(** A table of [R] rows padded to [L] rows, when [L] is more: the cells
    of the table, then zeros of its dtype. *)
Definition padded_to (L : nat) (a : nparray) : nparray :=
  match shape (values a) with
  | [R; C] =>
    mk_nparray (dtype a)
      (mk_ndarray [R `max` L; C]
         (data (values a) ++ replicate ((R `max` L - R) * C) (zero_of (dtype a))))
  | _ => a
  end.

End Pipeline.

(** * Examples *)

(** ** The dtypes of the examples

    Two dtypes; the cells are integers: an int64 cell, or a float64 cell
    of an integral value. *)

Inductive ex_dtype : Type := int64 | float64.

#[export] Instance ex_dtype_eq_dec : EqDecision ex_dtype.
Proof. solve_decision. Defined.

(** The float64 nearest to an integer, ties to the even mantissa: what the
    conversion of an int64 to float64 gives. *)
Definition round_float64 (z : Z) : Z :=
  let a := Z.abs z in
  if (a <? 2 ^ 53)%Z then z else
  let e := (Z.log2 a - 52)%Z in
  let q := (a / 2 ^ e)%Z in
  let r := (a mod 2 ^ e)%Z in
  let half := (2 ^ (e - 1))%Z in
  let q' := if (r <? half)%Z then q
            else if (half <? r)%Z then (q + 1)%Z
            else if Z.even q then q else (q + 1)%Z in
  (Z.sgn z * (q' * 2 ^ e))%Z.

Definition ex_astype (from to : ex_dtype) (z : Z) : Z :=
  match from, to with
  | int64, float64 => round_float64 z
  | _, _ => z
  end.

(** float64 as soon as one of the dtypes is float64. *)
Definition ex_common (l : list ex_dtype) : ex_dtype :=
  if bool_decide (float64 ∈ l) then float64 else int64.

Lemma ex_astype_same (d : ex_dtype) (z : Z) : ex_astype d d z = z.
Proof. by destruct d. Qed.

Lemma ex_common_same (d : ex_dtype) (l : list ex_dtype) :
  l ≠ [] → Forall (λ d', d' = d) l → ex_common l = d.
Proof.
  intros Hne Hall. unfold ex_common. rewrite Forall_forall in Hall.
  case_bool_decide as Hin.
  - by apply Hall.
  - destruct l as [|d' l]; [done|].
    destruct d; [done|]. exfalso. apply Hin.
    rewrite <- (Hall d') by left. left.
Qed.

#[export] Instance ex_numpy : NumPy Z ex_dtype := {
  zero_of := λ _, 0%Z;
  astype := ex_astype;
  result_type := ex_common;
  interleaved_dtype := ex_common;
  astype_same := ex_astype_same;
  result_type_same := ex_common_same;
  interleaved_dtype_same := ex_common_same
}.

(** A standard output that encodes every line. *)
Definition ex_stdout : Stdout := {| stdout_encodes := λ _, true |}.



(** ** Tables and folders *)

Definition ex_folder : string := "data/fatigueset/Raw EEG samples/Low Intensity".

Definition ex_t1 : ndarray (V:=Z) := mk_ndarray [2; 2] [1; 2; 3; 4]%Z.
Definition ex_t2 : ndarray (V:=Z) := mk_ndarray [2; 2] [5; 6; 7; 8]%Z.

(** Two float64 tables of one shape. *)
Definition ex_f1 : nparray (V:=Z) (DT:=ex_dtype) := mk_nparray float64 ex_t1.
Definition ex_f2 : nparray (V:=Z) (DT:=ex_dtype) := mk_nparray float64 ex_t2.

(** A table of int64 with a cell that float64 does not hold, and a table
    of float64 of the same shape. *)
Definition ex_int_table : nparray (V:=Z) (DT:=ex_dtype) :=
  mk_nparray int64 (mk_ndarray [1; 1] [9007199254740993]%Z).
Definition ex_float_table : nparray (V:=Z) (DT:=ex_dtype) :=
  mk_nparray float64 (mk_ndarray [1; 1] [1]%Z).

Definition ex_df_a : DataFrame (V:=Z) (DT:=ex_dtype) :=
  mk_DataFrame 2 [("Unnamed: 0", mk_Series int64 [0; 1]%Z);
                  ("ch1", mk_Series float64 [11; 12]%Z);
                  ("ch2", mk_Series float64 [21; 22]%Z)].
Definition ex_df_b : DataFrame (V:=Z) (DT:=ex_dtype) :=
  mk_DataFrame 3 [("ch1", mk_Series float64 [31; 32; 33]%Z);
                  ("ch2", mk_Series float64 [41; 42; 43]%Z)].
(** A table whose second column carries the label ['Unnamed: 0']. *)
Definition ex_df_c : DataFrame (V:=Z) (DT:=ex_dtype) :=
  mk_DataFrame 2 [("ch1", mk_Series float64 [10; 20]%Z);
                  ("Unnamed: 0", mk_Series int64 [0; 1]%Z)].

Definition ex_names : list string := ["a.csv"; "b.csv"; "bad.csv"; "notes.txt"].

(** A folder of the first group with two trials, a file that does not
    parse and a file of another extension. *)
Definition ex_world : World (V:=Z) (DT:=ex_dtype) :=
  mk_World
    (list_to_map [(ex_folder, ex_names)])
    (list_to_map
       [(path_join ex_folder "a.csv", CsvFile ex_df_a);
        (path_join ex_folder "b.csv", CsvFile ex_df_b);
        (path_join ex_folder "bad.csv", BadFile ParserError);
        (path_join ex_folder "notes.txt", BadFile ParserError)]).

(** The same group with no file that parses. *)
Definition ex_world_bad : World (V:=Z) (DT:=ex_dtype) :=
  mk_World
    (list_to_map [(ex_folder, ["bad.csv"; "notes.txt"])])
    (list_to_map
       [(path_join ex_folder "bad.csv", BadFile ParserError);
        (path_join ex_folder "notes.txt", BadFile ParserError)]).

(** A folder with the table [ex_df_c]. *)
Definition ex_world_c : World (V:=Z) (DT:=ex_dtype) :=
  mk_World
    (list_to_map [(ex_folder, ["c.csv"])])
    (list_to_map [(path_join ex_folder "c.csv", CsvFile ex_df_c)]).



(** * Properties *)

(** ** Computations *)

Lemma bind_ret_l {A B} (x : A) (k : A → Py B) : bind (ret x) k = k x.
Proof. unfold bind, ret. by destruct (k x). Qed.

Lemma bind_lift_ok {A B} (x : A) (k : A → Py B) : bind (lift (Ok x)) k = k x.
Proof. apply bind_ret_l. Qed.

Lemma bind_assoc {A B C} (m : Py A) (k : A → Py B) (h : B → Py C) :
  bind (bind m k) h = bind m (λ x, bind (k x) h).
Proof.
  destruct m as [out [x|e]]; simpl; [|done].
  destruct (k x) as [out1 [b|e]]; simpl; [|done].
  destruct (h b) as [out2 r]. by rewrite app_assoc.
Qed.

Section ArrayProperties.

Context {V : Type} (zero : V).

Implicit Types (a T P : ndarray (V:=V)).

(** ** Rows of a 2D array *)

Lemma size_of_row (c : nat) : size_of [c] = c.
Proof. unfold size_of; simpl; lia. Qed.

Lemma size_of_table (r c : nat) : size_of [r; c] = r * c.
Proof. unfold size_of; simpl; lia. Qed.

Lemma subarray_table a (r c i : nat) :
  shape a = [r; c] → i < r →
  subarray a i = Some (mk_ndarray [c] (take c (drop (i * c) (data a)))).
Proof.
  intros Hs Hi. unfold subarray. rewrite Hs, size_of_row.
  destruct (Nat.ltb_spec i r); [done|lia].
Qed.

Lemma row_of_app_l (d z : list V) (c i : nat) :
  i * c + c ≤ length d →
  take c (drop (i * c) (d ++ z)) = take c (drop (i * c) d).
Proof.
  intros Hle. rewrite drop_app_le by lia.
  apply take_app_le. rewrite length_drop. lia.
Qed.

Lemma row_of_app_zeros (d : list V) (c i n : nat) :
  length d ≤ i * c → i * c + c ≤ length d + n →
  take c (drop (i * c) (d ++ replicate n zero)) = replicate c zero.
Proof.
  intros H1 H2. rewrite drop_app_ge by lia.
  rewrite drop_replicate, take_replicate. f_equal. lia.
Qed.

(** ** The padder *)

Lemma pad_array_eq T (r : nat) (sh : list nat) (L : Z) :
  shape T = r :: sh →
  pad_array zero T L =
    if (Z.of_nat r <? L)%Z
    then lift (np_pad_rows_after zero T (Z.to_nat (L - Z.of_nat r)))
    else ret T.
Proof.
  intros Hs. unfold pad_array, shape0. rewrite Hs. simpl.
  destruct (Z.of_nat r <? L)%Z; [|done].
  by destruct (np_pad_rows_after _ _ _).
Qed.

Lemma pad_array_spec T (R C : nat) (L : Z) :
  shape T = [R; C] → wf_array T → (Z.of_nat R ≤ L)%Z →
  ∃ P, pad_array zero T L = ([], Ok P) ∧
       shape P = [Z.to_nat L; C] ∧
       wf_array P ∧
       data P = data T ++ replicate ((Z.to_nat L - R) * C) zero ∧
       (∀ i, i < R → subarray P i = subarray T i) ∧
       (∀ i, R ≤ i < Z.to_nat L → subarray P i = Some (zeros zero [C])).
Proof.
  intros Hs Hwf HL. unfold wf_array in Hwf. rewrite Hs, size_of_table in Hwf.
  rewrite (pad_array_eq _ _ _ _ Hs).
  destruct (Z.ltb_spec (Z.of_nat R) L) as [Hlt|Hge].
  - unfold np_pad_rows_after, lift. rewrite Hs.
    replace (Z.to_nat (L - Z.of_nat R)) with (Z.to_nat L - R) by lia.
    eexists; split; [reflexivity|]. cbn [shape data].
    split; [f_equal; lia|].
    split; [unfold wf_array; cbn [shape data];
            rewrite size_of_table, length_app, length_replicate; nia|].
    split; [done|]. split.
    + intros i Hi.
      rewrite (subarray_table _ (R + (Z.to_nat L - R)) C i) by (done || lia).
      rewrite (subarray_table T R C i) by done. cbn [shape data].
      rewrite row_of_app_l by nia. done.
    + intros i Hi.
      rewrite (subarray_table _ (R + (Z.to_nat L - R)) C i) by (done || lia).
      cbn [shape data]. unfold zeros. rewrite size_of_row.
      rewrite row_of_app_zeros by nia. done.
  - assert (Z.to_nat L = R) as HLR by lia.
    exists T. rewrite HLR, Nat.sub_diag. cbn [Nat.mul replicate]. rewrite app_nil_r.
    split; [done|]. split; [done|].
    split; [unfold wf_array; by rewrite Hs, size_of_table|].
    split; [done|]. split; [done|]. intros i Hi; lia.
Qed.

(** C1: padding a table of R rows to a target length L >= R gives a table
    of exactly L rows and as many columns, whose first R rows are those of
    the table and whose other rows are zero. *)
Theorem pad_array_pads T (R C : nat) (L : Z) :
  shape T = [R; C] → wf_array T → (Z.of_nat R ≤ L)%Z →
  ∃ P, pad_array zero T L = ([], Ok P) ∧
       shape P = [Z.to_nat L; C] ∧
       wf_array P ∧
       data P = data T ++ replicate ((Z.to_nat L - R) * C) zero ∧
       (∀ i, i < R → subarray P i = subarray T i) ∧
       (∀ i, R ≤ i < Z.to_nat L → subarray P i = Some (zeros zero [C])).
Proof. apply pad_array_spec. Qed.

(** C4: padding a table to a target length L <= its number of rows returns
    the table itself. *)
Theorem pad_array_no_truncation T (R C : nat) (L : Z) :
  shape T = [R; C] → (L ≤ Z.of_nat R)%Z →
  pad_array zero T L = ([], Ok T).
Proof.
  intros Hs HL. rewrite (pad_array_eq _ _ _ _ Hs).
  destruct (Z.ltb_spec (Z.of_nat R) L); [lia|done].
Qed.

(** ** Padding twice *)

(** X8: padding to a length and then to another is padding to the larger
    of the two, for an array of any rank (with the same exception where
    the padder raises). *)
Theorem pad_array_twice T (L1 L2 : Z) :
  bind (pad_array zero T L1) (λ P, pad_array zero P L2) =
  pad_array zero T (Z.max L1 L2).
Proof.
  destruct T as [sh d]. destruct sh as [|r sh]; [done|].
  rewrite !(pad_array_eq _ r sh) by done.
  destruct (Z.ltb_spec (Z.of_nat r) L1) as [H1|H1].
  - destruct (Z.ltb_spec (Z.of_nat r) (Z.max L1 L2)) as [_|Hm]; [|lia].
    unfold np_pad_rows_after. cbn [shape data].
    destruct sh as [|c [|c' sh]]; [done| |done].
    rewrite bind_lift_ok.
    rewrite (pad_array_eq _ (r + Z.to_nat (L1 - Z.of_nat r)) [c]) by done.
    destruct (Z.ltb_spec (Z.of_nat (r + Z.to_nat (L1 - Z.of_nat r))) L2) as [H2|H2].
    + unfold np_pad_rows_after, lift. cbn [shape data]. do 2 f_equal.
      rewrite <- app_assoc, <- replicate_add. f_equal; [f_equal; lia|].
      do 2 f_equal. nia.
    + unfold ret, lift. do 4 f_equal; [lia|]. do 2 f_equal. lia.
  - rewrite bind_ret_l. rewrite (pad_array_eq _ r sh) by done.
    destruct (Z.ltb_spec (Z.of_nat r) L2) as [H2|H2].
    + destruct (Z.ltb_spec (Z.of_nat r) (Z.max L1 L2)) as [_|Hm]; [|lia].
      do 3 f_equal. lia.
    + destruct (Z.ltb_spec (Z.of_nat r) (Z.max L1 L2)) as [Hm|_]; [lia|done].
Qed.

(** ** Lists of rows of one length *)

Lemma concat_uniform_length (ls : list (list V)) (n : nat) :
  Forall (λ l, length l = n) ls → length (concat ls) = length ls * n.
Proof.
  induction 1 as [|l ls Hl _ IH]; [done|].
  simpl. rewrite length_app, IH, Hl. lia.
Qed.

Lemma concat_uniform_slice (ls : list (list V)) (n i : nat) (l : list V) :
  Forall (λ l, length l = n) ls → ls !! i = Some l →
  take n (drop (i * n) (concat ls)) = l.
Proof.
  intros Hall. revert i. induction Hall as [|l0 ls Hl0 _ IH]; intros i Hi.
  - done.
  - destruct i as [|i].
    + injection Hi as ->. rewrite concat_cons. change (0 * n) with 0.
      rewrite drop_0. by apply take_app_length'.
    + rewrite concat_cons, drop_app_ge by lia.
      replace (S i * n - length l0) with (i * n) by lia. by apply IH.
Qed.

Lemma concat_uniform_lookup (ls : list (list V)) (n i j : nat) (l : list V) :
  Forall (λ l, length l = n) ls → ls !! i = Some l → j < n →
  concat ls !! (i * n + j) = l !! j.
Proof.
  intros Hall Hi Hj.
  rewrite <- (concat_uniform_slice ls n i l Hall Hi).
  rewrite lookup_take_lt by done. by rewrite lookup_drop.
Qed.

End ArrayProperties.

(** ** The lines of the script *)

(** The lines of [find_max_length] break the indentation rule at line 64:
    the string of lines 64-66 starts one column left of the body. *)
Lemma find_max_length_lines : indentation_error 58 75 = Some 64.
Proof. reflexivity. Qed.

(** The lines of [process_fatigueset] break it at line 120: the loop
    starts one column left of the body. *)
Lemma process_fatigueset_lines : indentation_error 109 158 = Some 120.
Proof. reflexivity. Qed.

(** The compiler stops at the first of the two. *)
Lemma script_lines : indentation_error 1 164 = Some 64.
Proof. reflexivity. Qed.

(** The lines of the loader, of the padder and of [create_3d_array] keep
    the rule. *)
Lemma other_lines :
  indentation_error 25 39 = None ∧ indentation_error 41 56 = None ∧
  indentation_error 77 105 = None.
Proof. repeat split; reflexivity. Qed.

(** X17: the two lines are all that the indentation rule has against
    the script: with one of them at the indentation of its block the
    compiler stops at the other, with both there the script passes. *)
Theorem two_lines_break_the_rule :
  check_indentation [0] source_lines = Some 64 ∧
  check_indentation [0] (reindent 64 4 source_lines) = Some 120 ∧
  check_indentation [0] (reindent 120 4 source_lines) = Some 64 ∧
  check_indentation [0] (reindent 120 4 (reindent 64 4 source_lines)) = None.
Proof. repeat split; reflexivity. Qed.

Section PipelineProperties.

Context {V DT : Type} {numpy : NumPy V DT} {stdout : Stdout}.

Implicit Types (a T P B : nparray (V:=V) (DT:=DT)) (w : World (V:=V) (DT:=DT)).
Implicit Types (df : DataFrame (V:=V) (DT:=DT)).
Implicit Types (arrays : list (nparray (V:=V) (DT:=DT))).

(** ** The script as it is *)

Lemma find_max_length_raises w (folder_path : string) :
  find_max_length w folder_path = ([], Raise IndentationError).
Proof. unfold find_max_length, py_def. by rewrite find_max_length_lines. Qed.

Lemma create_3d_array_raises w (folder_path : string) :
  create_3d_array w folder_path = ([], Raise IndentationError).
Proof. unfold create_3d_array. by rewrite find_max_length_raises. Qed.

Lemma process_fatigueset_raises w :
  process_fatigueset w = (w, ([], Raise IndentationError)).
Proof. unfold process_fatigueset. by rewrite process_fatigueset_lines. Qed.

Lemma main_raises w : main w = (w, ([], Raise IndentationError)).
Proof. unfold main. by rewrite script_lines. Qed.

(** C2: as it is, [find_max_length] returns no length, neither the
    maximum nor 0: its lines do not compile, and a call comes to
    IndentationError for every directory. *)
Theorem find_max_length_as_shipped w (folder_path : string) :
  indentation_error 58 75 = Some 64 ∧
  find_max_length w folder_path = ([], Raise IndentationError).
Proof. split; [apply find_max_length_lines|apply find_max_length_raises]. Qed.

(** C5: the lines of the Stacker (101-105) give no result for an empty
    list, with the diagnostic line; but as it is, [create_3d_array] does
    not reach them: it raises IndentationError at its call of
    [find_max_length], for a directory without a valid table as for any
    other, and [process_fatigueset], never defined, goes through no group
    and not on to a next one. *)
Theorem empty_group_as_shipped w (folder_path : string) :
  stack_array_list folder_path [] =
    (if stdout_encodes (PNoValidCsv folder_path)
     then ([PNoValidCsv folder_path], Ok None)
     else ([], Raise UnicodeEncodeError)) ∧
  create_3d_array w folder_path = ([], Raise IndentationError) ∧
  process_fatigueset w = (w, ([], Raise IndentationError)).
Proof.
  split; [|split; [apply create_3d_array_raises|apply process_fatigueset_raises]].
  unfold stack_array_list, print.
  by destruct (stdout_encodes (PNoValidCsv folder_path)).
Qed.

(** C7: as it is, [process_fatigueset] enumerates no group: the loop that
    builds the catalog starts at line 120, where the lines of the function
    break the indentation rule, and the function is never defined. *)
Theorem catalog_as_shipped w :
  indentation_error 109 158 = Some 120 ∧
  process_fatigueset w = (w, ([], Raise IndentationError)).
Proof. split; [apply process_fatigueset_lines|apply process_fatigueset_raises]. Qed.


(** C10: as it is, [create_3d_array] has no scanned maximum and never
    comes to its padding loop: the scan of line 83 raises
    IndentationError, and no table is loaded, padded or appended. *)
Theorem padding_loop_as_shipped w (folder_path : string) :
  find_max_length w folder_path = ([], Raise IndentationError) ∧
  create_3d_array w folder_path = ([], Raise IndentationError).
Proof. split; [apply find_max_length_raises|apply create_3d_array_raises]. Qed.

(** X16: a run of the script as it is raises the IndentationError of
    line 64 before any statement runs: it prints nothing and leaves the
    file system as it is, the output directory not created. *)
Theorem script_as_shipped w :
  indentation_error 1 164 = Some 64 ∧
  main w = (w, ([], Raise IndentationError)).
Proof. split; [apply script_lines|apply main_raises]. Qed.

(** ** The loader *)

Lemma drop_columns_index df :
  "Unnamed: 0" ∈ columns df →
  drop_columns df "Unnamed: 0" = Ok (without_index_column df).
Proof. intros Hin. unfold drop_columns. by rewrite bool_decide_eq_true_2. Qed.

Lemma without_index_column_id df :
  "Unnamed: 0" ∉ columns df → without_index_column df = df.
Proof.
  intros Hnot. destruct df as [n cs]. unfold without_index_column, columns in *.
  simpl in *. f_equal.
  induction cs as [|c cs IH]; [done|].
  rewrite filter_cons_True.
  - f_equal. apply IH. intros Hin. apply Hnot. simpl. by right.
  - intros Heq. apply Hnot. simpl. rewrite Heq. by left.
Qed.

(** What the loader does, by the outcome of [pd.read_csv]. *)
Lemma load_csv_to_numpy_eq w (file_path : string) :
  load_csv_to_numpy w file_path =
    match read_csv w file_path with
    | Ok df => ([], Ok (Some (to_numpy (without_index_column df))))
    | Raise e =>
      if stdout_encodes (PErrorLoading file_path e)
      then ([PErrorLoading file_path e], Ok None)
      else ([], Raise UnicodeEncodeError)
    end.
Proof.
  unfold load_csv_to_numpy. destruct (read_csv w file_path) as [df|e].
  - simpl. destruct (decide ("Unnamed: 0" ∈ columns df)) as [Hin|Hnot].
    + rewrite bool_decide_eq_true_2 by done.
      by rewrite drop_columns_index.
    + rewrite bool_decide_eq_false_2 by done.
      by rewrite without_index_column_id.
  - simpl. unfold print. by destruct (stdout_encodes (PErrorLoading file_path e)).
Qed.

Lemma to_numpy_wf df : wf_array (values (to_numpy df)).
Proof.
  unfold wf_array, to_numpy. cbn [values shape data]. rewrite size_of_table.
  rewrite (concat_uniform_length _ (length (cols df))).
  - by rewrite length_fmap, length_seq.
  - apply Forall_fmap, Forall_forall. intros i _. simpl. by rewrite length_fmap.
Qed.



(** X15: what the loader returns for a file that parses is a
    well-formed 2D array with one row per index entry of the DataFrame and
    one column per column that is not labelled ['Unnamed: 0']; nothing is
    printed. *)
Theorem loader_result_is_table w (file_path : string) a :
  (load_csv_to_numpy w file_path).2 = Ok (Some a) →
  ∃ df, read_csv w file_path = Ok df ∧
        load_csv_to_numpy w file_path = ([], Ok (Some a)) ∧
        shape (values a) =
          [nrows df; length (filter (λ l, l ≠ "Unnamed: 0") (columns df))] ∧
        wf_array (values a).
Proof.
  rewrite load_csv_to_numpy_eq.
  destruct (read_csv w file_path) as [df|e'].
  - intros [= <-]. exists df. split; [done|]. split; [done|].
    split; [|apply to_numpy_wf].
    unfold to_numpy, without_index_column, columns. cbn [values shape cols nrows].
    do 2 f_equal.
    induction (cols df) as [|c cs IH]; [done|].
    destruct (decide (c.1 = "Unnamed: 0")) as [Heq|Hne].
    + rewrite filter_cons_False by (by intros Hne; apply Hne).
      rewrite fmap_cons, filter_cons_False by (by intros Hne; apply Hne). done.
    + rewrite filter_cons_True by done.
      rewrite fmap_cons, filter_cons_True by done. simpl. by rewrite IH.
  - by destruct (stdout_encodes (PErrorLoading file_path e')).
Qed.

(** ** The column of row indices *)

(** Cell (i, j) of the converted table is cell i of column j, converted to
    the dtype of the table. *)
Lemma to_numpy_cell df (i j : nat) (c : string * Series) :
  i < nrows df → cols df !! j = Some c →
  cell (values (to_numpy df)) i j =
    Some (astype (sdtype c.2) (dtype (to_numpy df))
            (default (zero_of (sdtype c.2)) (cells c.2 !! i))).
Proof.
  intros Hi Hj. unfold cell, to_numpy. cbn [values dtype shape data].
  pose proof (lookup_lt_Some _ _ _ Hj) as Hjlt.
  destruct (Nat.ltb_spec i (nrows df)); [|lia].
  destruct (Nat.ltb_spec j (length (cols df))); [|lia]. cbn [andb].
  erewrite concat_uniform_lookup; [| |by rewrite list_lookup_fmap, lookup_seq_lt|done].
  - by rewrite list_lookup_fmap, Hj.
  - apply Forall_fmap, Forall_forall. intros i' _. simpl. by rewrite length_fmap.
Qed.

Lemma columns_without_index_column df :
  columns (without_index_column df) = filter (λ l, l ≠ "Unnamed: 0") (columns df).
Proof.
  unfold columns, without_index_column. cbn [cols].
  induction (cols df) as [|c cs IH]; [done|].
  destruct (decide (c.1 = "Unnamed: 0")) as [Heq|Hne].
  - rewrite filter_cons_False by (by intros Hne; apply Hne).
    rewrite fmap_cons, filter_cons_False by (by intros Hne; apply Hne). done.
  - rewrite filter_cons_True by done.
    rewrite !fmap_cons, filter_cons_True by done. by rewrite IH.
Qed.

Lemma without_index_column_first df (s : Series) (rest : list (string * Series)) :
  cols df = ("Unnamed: 0", s) :: rest → "Unnamed: 0" ∉ (fst <$> rest) →
  without_index_column df = mk_DataFrame (nrows df) rest.
Proof.
  intros Hcols Hrest. unfold without_index_column. rewrite Hcols.
  rewrite filter_cons_False by (by intros Hne; apply Hne).
  f_equal. pose proof (without_index_column_id (mk_DataFrame (nrows df) rest) Hrest) as Hid.
  by injection Hid.
Qed.

Lemma without_index_column_wf df : wf_frame df → wf_frame (without_index_column df).
Proof.
  unfold wf_frame, without_index_column. cbn [nrows cols].
  rewrite !Forall_forall. intros Hwf c Hc.
  apply list_elem_of_filter in Hc as [_ Hc]. by apply Hwf.
Qed.

(** C8, as the code has it: the loader drops the columns labelled
    ['Unnamed: 0'], wherever they stand, and converts the other columns in
    their order to one array of their common dtype; a table without a
    column of that label is converted with all its columns. *)
Theorem loader_drops_unnamed_0 w (file_path : string) df :
  read_csv w file_path = Ok df →
  load_csv_to_numpy w file_path =
    ([], Ok (Some (to_numpy (without_index_column df)))) ∧
  columns (without_index_column df) = filter (λ l, l ≠ "Unnamed: 0") (columns df) ∧
  (∀ s rest, cols df = ("Unnamed: 0", s) :: rest → "Unnamed: 0" ∉ (fst <$> rest) →
             without_index_column df = mk_DataFrame (nrows df) rest) ∧
  ("Unnamed: 0" ∉ columns df → without_index_column df = df) ∧
  dtype (to_numpy (without_index_column df)) =
    interleaved_dtype ((λ c, sdtype c.2) <$> cols (without_index_column df)) ∧
  (wf_frame df →
   ∀ i j c, i < nrows df → cols (without_index_column df) !! j = Some c →
            cell (values (to_numpy (without_index_column df))) i j =
              astype (sdtype c.2) (dtype (to_numpy (without_index_column df)))
                <$> cells c.2 !! i) ∧
  (wf_frame df →
   ∀ d, Forall (λ c, sdtype c.2 = d) (cols (without_index_column df)) →
   ∀ i j c, i < nrows df → cols (without_index_column df) !! j = Some c →
            dtype (to_numpy (without_index_column df)) = d ∧
            cell (values (to_numpy (without_index_column df))) i j = cells c.2 !! i).
Proof.
  intros Hread. split; [by rewrite load_csv_to_numpy_eq, Hread|].
  split; [apply columns_without_index_column|].
  split; [apply without_index_column_first|].
  split; [apply without_index_column_id|].
  split; [done|].
  assert (wf_frame df →
          ∀ i j c, i < nrows df → cols (without_index_column df) !! j = Some c →
            cell (values (to_numpy (without_index_column df))) i j =
              astype (sdtype c.2) (dtype (to_numpy (without_index_column df)))
                <$> cells c.2 !! i) as Hcell.
  { intros Hwf i j c Hi Hj.
    rewrite (to_numpy_cell _ i j c) by done.
    pose proof (without_index_column_wf df Hwf) as Hwf'.
    unfold wf_frame in Hwf'. rewrite Forall_lookup in Hwf'.
    specialize (Hwf' j c Hj). cbn [nrows without_index_column] in Hwf'.
    destruct (lookup_lt_is_Some_2 (cells c.2) i) as [x Hx]; [lia|]. by rewrite Hx. }
  split; [exact Hcell|].
  intros Hwf d Hd i j c Hi Hj.
  assert (dtype (to_numpy (without_index_column df)) = d) as Hdt.
  { unfold to_numpy. cbn [dtype]. apply interleaved_dtype_same.
    - destruct (cols (without_index_column df)); [done|done].
    - by apply Forall_fmap. }
  split; [done|]. rewrite (Hcell Hwf i j c Hi Hj), Hdt.
  rewrite Forall_lookup in Hd. rewrite (Hd j c Hj).
  destruct (cells c.2 !! i) as [x|]; [|done]. simpl. by rewrite astype_same.
Qed.

(** ** The stacker *)

Lemma length_converted (d : DT) a : length (converted d a) = length (data (values a)).
Proof. unfold converted. apply length_fmap. Qed.

Lemma converted_same (d : DT) a :
  dtype a = d → converted d a = data (values a).
Proof.
  intros Hd. unfold converted. rewrite Hd.
  induction (data (values a)) as [|v l IH]; [done|].
  rewrite fmap_cons, astype_same. by f_equal.
Qed.

Lemma np_stack_same_shape arrays a0 (sh : list nat) :
  Forall (λ a, shape (values a) = sh) (a0 :: arrays) →
  np_stack (a0 :: arrays) =
    Ok (mk_nparray (result_type (dtype <$> a0 :: arrays))
          (mk_ndarray (S (length arrays) :: sh)
             (concat (converted (result_type (dtype <$> a0 :: arrays))
                        <$> a0 :: arrays)))).
Proof.
  intros Hall. unfold np_stack.
  assert (shape (values a0) = sh) as H0 by (by inversion Hall).
  rewrite bool_decide_eq_true_2.
  - by rewrite H0.
  - rewrite H0. done.
Qed.

(** C3, as the code has it: stacking N >= 1 tables of one shape (R, C)
    gives a block of shape (N, R, C) and of the common dtype of the
    tables, whose slice i along the leading axis is table i converted to
    that dtype; it is table i itself when the tables have one dtype. *)
Theorem stack_array_list_block (folder_path : string) arrays (N R C : nat) :
  length arrays = N → 1 ≤ N →
  Forall (λ a, shape (values a) = [R; C] ∧ wf_array (values a)) arrays →
  ∃ B, stack_array_list folder_path arrays = ([], Ok (Some B)) ∧
       dtype B = result_type (dtype <$> arrays) ∧
       shape (values B) = [N; R; C] ∧
       wf_array (values B) ∧
       (∀ i T, arrays !! i = Some T →
          subarray (values B) i = Some (mk_ndarray [R; C] (converted (dtype B) T))) ∧
       (∀ d, Forall (λ a, dtype a = d) arrays →
             dtype B = d ∧
             ∀ i T, arrays !! i = Some T → subarray (values B) i = Some (values T)).
Proof.
  intros HN Hpos Hall.
  destruct arrays as [|a0 arrays]; [simpl in HN; lia|].
  set (d := result_type (dtype <$> a0 :: arrays)).
  assert (Forall (λ a, shape (values a) = [R; C]) (a0 :: arrays)) as Hsh
    by (eapply Forall_impl; [exact Hall|]; by intros ? [? ?]).
  assert (Forall (λ l : list V, length l = R * C) (converted d <$> a0 :: arrays)) as Hlen.
  { apply Forall_fmap. eapply Forall_impl; [exact Hall|].
    intros a [Hs Hwf]. unfold wf_array in Hwf.
    simpl. by rewrite length_converted, Hwf, Hs, size_of_table. }
  unfold stack_array_list. rewrite (np_stack_same_shape _ _ _ Hsh). fold d.
  eexists; split; [reflexivity|]. cbn [dtype values shape data].
  simpl in HN. split; [done|]. split; [by rewrite HN|].
  assert (∀ i T, (a0 :: arrays) !! i = Some T →
            subarray (mk_ndarray (S (length arrays) :: [R; C])
                        (concat (converted d <$> a0 :: arrays))) i =
            Some (mk_ndarray [R; C] (converted d T))) as Hslices.
  { intros i T HT. unfold subarray. cbn [shape data].
    pose proof (lookup_lt_Some _ _ _ HT) as Hi. simpl in Hi.
    destruct (Nat.ltb_spec i (S (length arrays))); [|lia].
    rewrite size_of_table. f_equal. f_equal.
    apply (concat_uniform_slice _ _ _ _ Hlen).
    by rewrite list_lookup_fmap, HT. }
  split; [|split].
  - unfold wf_array. cbn [shape data].
    rewrite (concat_uniform_length _ _ Hlen), length_fmap.
    unfold size_of. simpl. lia.
  - exact Hslices.
  - intros d0 Hd0.
    assert (d = d0) as Hres.
    { apply result_type_same; [done|]. by apply Forall_fmap. }
    split; [done|]. intros i T HT. rewrite (Hslices i T HT). f_equal.
    rewrite Forall_lookup in Hd0, Hsh.
    pose proof (Hsh i T HT) as HsT. cbv beta in HsT.
    rewrite Hres, (converted_same d0 T (Hd0 i T HT)).
    destruct (values T) as [sT dT]. simpl in *. by rewrite HsT.
Qed.

(** ** The padding loop *)

Lemma to_numpy_shape df : shape (values (to_numpy df)) = [nrows df; length (cols df)].
Proof. done. Qed.

Lemma pad_array_table (zero : V) (T : ndarray (V:=V)) (R C : nat) (L : Z) :
  shape T = [R; C] →
  pad_array zero T L =
    ([], Ok (mk_ndarray [R `max` Z.to_nat L; C]
               (data T ++ replicate ((R `max` Z.to_nat L - R) * C) zero))).
Proof.
  intros Hs. rewrite (pad_array_eq zero T R [C] L Hs).
  destruct (Z.ltb_spec (Z.of_nat R) L) as [Hlt|Hge].
  - unfold np_pad_rows_after, lift. rewrite Hs.
    replace (R `max` Z.to_nat L) with (R + Z.to_nat (L - Z.of_nat R)) by lia.
    by replace (R + Z.to_nat (L - Z.of_nat R) - R) with (Z.to_nat (L - Z.of_nat R)) by lia.
  - replace (R `max` Z.to_nat L) with R by lia.
    rewrite Nat.sub_diag. cbn [Nat.mul replicate]. rewrite app_nil_r.
    destruct T as [sh d]. simpl in Hs. by rewrite Hs.
Qed.

Lemma pad_nparray_table a (R C : nat) (L : Z) :
  shape (values a) = [R; C] →
  pad_nparray a L = ret (padded_to (Z.to_nat L) a).
Proof.
  intros Hs. unfold pad_nparray, padded_to.
  by rewrite (pad_array_table _ _ R C L Hs), Hs.
Qed.

Lemma padded_to_table a (R C L : nat) :
  shape (values a) = [R; C] →
  dtype (padded_to L a) = dtype a ∧
  shape (values (padded_to L a)) = [R `max` L; C] ∧
  data (values (padded_to L a)) =
    data (values a) ++ replicate ((R `max` L - R) * C) (zero_of (dtype a)).
Proof. intros Hs. unfold padded_to. by rewrite Hs. Qed.

Lemma loaded_tables_are_tables w (folder_path : string) (files : list string) T :
  T ∈ loaded_tables w folder_path files →
  ∃ R C, shape (values T) = [R; C] ∧ wf_array (values T).
Proof.
  unfold loaded_tables. rewrite list_elem_of_omap. intros (file & _ & Hload).
  destruct (read_csv w (path_join folder_path file)) as [df|e]; [|done].
  injection Hload as <-. eexists _, _. split; [apply to_numpy_shape|apply to_numpy_wf].
Qed.

Lemma loaded_tables_cons w (folder_path file : string) (files : list string) :
  loaded_tables w folder_path (file :: files) =
    match read_csv w (path_join folder_path file) with
    | Ok df => to_numpy (without_index_column df) :: loaded_tables w folder_path files
    | Raise _ => loaded_tables w folder_path files
    end.
Proof.
  unfold loaded_tables. simpl.
  by destruct (read_csv w (path_join folder_path file)).
Qed.

Lemma error_lines_cons w (folder_path file : string) (files : list string) :
  error_lines w folder_path (file :: files) =
    match read_csv w (path_join folder_path file) with
    | Ok _ => error_lines w folder_path files
    | Raise e =>
      PErrorLoading (path_join folder_path file) e :: error_lines w folder_path files
    end.
Proof.
  unfold error_lines. simpl.
  by destruct (read_csv w (path_join folder_path file)).
Qed.

(** The loop of lines 91-97 for a target length and a list to append to,
    on a standard output that encodes the error lines. *)
Lemma create_3d_array_loop_eq w (folder_path : string) (files : list string)
    (L : Z) (acc : list nparray) :
  (∀ file e, file ∈ files → read_csv w (path_join folder_path file) = Raise e →
             stdout_encodes (PErrorLoading (path_join folder_path file) e) = true) →
  create_3d_array_loop w folder_path files L acc =
    (error_lines w folder_path files,
     Ok (acc ++ (padded_to (Z.to_nat L) <$> loaded_tables w folder_path files))).
Proof.
  revert acc. induction files as [|file files IH]; intros acc Henc.
  - simpl. by rewrite app_nil_r.
  - cbn [create_3d_array_loop].
    rewrite load_csv_to_numpy_eq, loaded_tables_cons, error_lines_cons.
    destruct (read_csv w (path_join folder_path file)) as [df|e] eqn:Hread.
    + change ([], Ok (Some (to_numpy (without_index_column df))))
        with (ret (Some (to_numpy (without_index_column df)))).
      rewrite bind_ret_l.
      rewrite (pad_nparray_table _ _ _ _ (to_numpy_shape _)).
      rewrite !bind_ret_l.
      rewrite IH by (intros f e Hf; apply Henc; by right).
      rewrite fmap_cons. by rewrite <- app_assoc.
    + rewrite (Henc file e) by (done || left).
      unfold bind at 1. rewrite bind_ret_l.
      rewrite IH by (intros f e' Hf; apply Henc; by right).
      done.
Qed.

(** X18: the loop of lines 91-97, for a target length L: a file that
    does not load leaves its error line and is skipped; for every file
    that loads, in the order of the files, the list gets the table with
    its rows first and zero rows below up to L rows, or the table as it is
    when it has L rows or more.  When L bounds the rows of all tables and
    the tables have one number of columns, all arrays of the list have the
    shape (L, C). *)
Theorem padding_loop_pads w (folder_path : string) (files : list string) (L : Z) :
  (∀ file e, file ∈ files → read_csv w (path_join folder_path file) = Raise e →
             stdout_encodes (PErrorLoading (path_join folder_path file) e) = true) →
  ∃ array_list,
    create_3d_array_loop w folder_path files L [] =
      (error_lines w folder_path files, Ok array_list) ∧
    Forall2 (λ T P,
               dtype P = dtype T ∧
               ∃ R C, shape (values T) = [R; C] ∧
                      shape (values P) = [R `max` Z.to_nat L; C] ∧
                      data (values P) =
                        data (values T) ++
                        replicate ((R `max` Z.to_nat L - R) * C) (zero_of (dtype T)))
            (loaded_tables w folder_path files) array_list ∧
    (∀ C, Forall (λ T, ∃ R, shape (values T) = [R; C] ∧ (Z.of_nat R ≤ L)%Z)
                 (loaded_tables w folder_path files) →
          Forall (λ P, shape (values P) = [Z.to_nat L; C]) array_list).
Proof.
  intros Henc. eexists. split; [by apply create_3d_array_loop_eq|].
  cbn [app]. split.
  - apply Forall2_fmap_r, Forall_Forall2_diag, Forall_forall. intros T HT.
    destruct (loaded_tables_are_tables _ _ _ _ HT) as (R & C & Hs & _).
    destruct (padded_to_table T R C (Z.to_nat L) Hs) as (Hd & Hsh & Hdata).
    split; [done|]. by exists R, C.
  - intros C Hall. apply Forall_fmap. eapply Forall_impl; [exact Hall|].
    intros T (R & Hs & HR). unfold compose.
    destruct (padded_to_table T R C (Z.to_nat L) Hs) as (_ & Hsh & _).
    rewrite Hsh. do 2 f_equal. lia.
Qed.

(** X19: the lines of the Stacker on arrays of different shapes: the
    stacking raises ValueError. *)
Theorem stack_array_list_mismatch (folder_path : string) arrays a b :
  a ∈ arrays → b ∈ arrays → shape (values a) ≠ shape (values b) →
  stack_array_list folder_path arrays = ([], Raise ValueError).
Proof.
  intros Ha Hb Hne. destruct arrays as [|a0 arrays]; [by apply elem_of_nil in Ha|].
  unfold stack_array_list, np_stack.
  rewrite bool_decide_eq_false_2; [done|].
  rewrite Forall_forall. intros Hall.
  apply Hne. by rewrite (Hall a Ha), (Hall b Hb).
Qed.

(** ** The catalog of the re-indented loop *)

Lemma lower_char_space (c : ascii) :
  Ascii.eqb (lower_char c) " " = Ascii.eqb c " ".
Proof. destruct c as [[] [] [] [] [] [] [] []]; reflexivity. Qed.

Lemma split_first_lower (s : string) :
  split_first (lower s) = lower (split_first s).
Proof.
  induction s as [|c s IH]; [done|]. simpl.
  rewrite lower_char_space. destruct (Ascii.eqb c " "); [done|].
  simpl. by rewrite IH.
Qed.

(** With line 120 at the indentation of the body, the loop of lines
    120-134 builds the catalog that the function is written for:
    18 groups, 6 bands by 3 intensities, each with the output name
    array_3D_<band>_<intensity>.npy of its abbreviations. *)
Lemma data_sets_reindented_catalog :
  length data_sets_reindented = 18 ∧ length bands = 6 ∧ length intensities = 3 ∧
  (∀ name, band_abbr name = lower (split_first name) ∧
           intensity_abbr name = lower (split_first name)) ∧
  band_abbr <$> bands = ["raw"; "alpha"; "beta"; "gamma"; "delta"; "theta"] ∧
  intensity_abbr <$> intensities = ["low"; "medium"; "high"] ∧
  output_name <$> data_sets_reindented =
    ["array_3D_raw_low.npy"; "array_3D_raw_medium.npy"; "array_3D_raw_high.npy";
     "array_3D_alpha_low.npy"; "array_3D_alpha_medium.npy"; "array_3D_alpha_high.npy";
     "array_3D_beta_low.npy"; "array_3D_beta_medium.npy"; "array_3D_beta_high.npy";
     "array_3D_gamma_low.npy"; "array_3D_gamma_medium.npy"; "array_3D_gamma_high.npy";
     "array_3D_delta_low.npy"; "array_3D_delta_medium.npy"; "array_3D_delta_high.npy";
     "array_3D_theta_low.npy"; "array_3D_theta_medium.npy"; "array_3D_theta_high.npy"].
Proof.
  repeat split; try reflexivity; apply split_first_lower.
Qed.

End PipelineProperties.

(** * The properties on the examples *)

Lemma pad_array_pads_witness :
  shape ex_t1 = [2; 2] ∧ wf_array ex_t1 ∧ (Z.of_nat 2 ≤ 3)%Z ∧
  ∃ P, pad_array 0%Z ex_t1 3 = ([], Ok P) ∧
       shape P = [Z.to_nat 3; 2] ∧
       wf_array P ∧
       data P = data ex_t1 ++ replicate ((Z.to_nat 3 - 2) * 2) 0%Z ∧
       (∀ i, i < 2 → subarray P i = subarray ex_t1 i) ∧
       (∀ i, 2 ≤ i < Z.to_nat 3 → subarray P i = Some (zeros 0%Z [2])).
Proof.
  split; [reflexivity|]. split; [reflexivity|]. split; [lia|].
  apply (pad_array_pads 0%Z ex_t1 2 2 3); [reflexivity|reflexivity|lia].
Defined.

Lemma pad_array_no_truncation_witness :
  shape ex_t1 = [2; 2] ∧ (1 ≤ Z.of_nat 2)%Z ∧
  pad_array 0%Z ex_t1 1 = ([], Ok ex_t1).
Proof.
  split; [reflexivity|]. split; [lia|].
  apply (pad_array_no_truncation 0%Z ex_t1 2 2 1); [reflexivity|lia].
Defined.

(** Two float64 tables of the shape (2, 2) stacked. *)
Lemma stack_array_list_block_witness :
  Forall (λ a, shape (values a) = [2; 2] ∧ wf_array (values a)) [ex_f1; ex_f2] ∧
  ∃ B, stack_array_list (stdout:=ex_stdout) ex_folder [ex_f1; ex_f2] =
         ([], Ok (Some B)) ∧
       dtype B = result_type (dtype <$> [ex_f1; ex_f2]) ∧
       shape (values B) = [2; 2; 2] ∧
       wf_array (values B) ∧
       (∀ i T, [ex_f1; ex_f2] !! i = Some T →
          subarray (values B) i = Some (mk_ndarray [2; 2] (converted (dtype B) T))) ∧
       (∀ d, Forall (λ a, dtype a = d) [ex_f1; ex_f2] →
             dtype B = d ∧
             ∀ i T, [ex_f1; ex_f2] !! i = Some T →
                    subarray (values B) i = Some (values T)).
Proof.
  assert (Forall (λ a : nparray, shape (values a) = [2; 2] ∧ wf_array (values a))
                 [ex_f1; ex_f2]) as Hall.
  { repeat first [apply Forall_cons | apply Forall_nil | split | reflexivity]. }
  split; [exact Hall|].
  apply (stack_array_list_block (stdout:=ex_stdout) ex_folder [ex_f1; ex_f2] 2 2 2);
    [reflexivity|lia|exact Hall].
Defined.

(** C3, as stated, fails on an int64 table stacked with a float64 table
    of the same shape: the block is of float64, and its slice 0 holds
    9007199254740992 where the table holds 9007199254740993. *)
Lemma stack_keeps_tables_counterexample :
  Forall (λ a, shape (values a) = [1; 1] ∧ wf_array (values a))
         [ex_int_table; ex_float_table] ∧
  ∃ B, stack_array_list (stdout:=ex_stdout) ex_folder [ex_int_table; ex_float_table] =
         ([], Ok (Some B)) ∧
       shape (values B) = [2; 1; 1] ∧
       dtype B = float64 ∧
       values ex_int_table = mk_ndarray [1; 1] [9007199254740993]%Z ∧
       subarray (values B) 0 = Some (mk_ndarray [1; 1] [9007199254740992]%Z) ∧
       subarray (values B) 0 ≠ Some (values ex_int_table).
Proof.
  split.
  { repeat first [apply Forall_cons | apply Forall_nil | split | reflexivity]. }
  eexists. split; [vm_compute; reflexivity|].
  split; [reflexivity|]. split; [reflexivity|]. split; [reflexivity|].
  split; [vm_compute; reflexivity|]. vm_compute. discriminate.
Qed.



(** A table with the index column first. *)
Lemma loader_drops_unnamed_0_witness :
  read_csv ex_world (path_join ex_folder "a.csv") = Ok ex_df_a ∧
  load_csv_to_numpy (stdout:=ex_stdout) ex_world (path_join ex_folder "a.csv") =
    ([], Ok (Some (to_numpy (without_index_column ex_df_a)))) ∧
  columns (without_index_column ex_df_a) =
    filter (λ l, l ≠ "Unnamed: 0") (columns ex_df_a) ∧
  (∀ s rest, cols ex_df_a = ("Unnamed: 0", s) :: rest → "Unnamed: 0" ∉ (fst <$> rest) →
             without_index_column ex_df_a = mk_DataFrame (nrows ex_df_a) rest) ∧
  ("Unnamed: 0" ∉ columns ex_df_a → without_index_column ex_df_a = ex_df_a) ∧
  dtype (to_numpy (without_index_column ex_df_a)) =
    interleaved_dtype ((λ c, sdtype c.2) <$> cols (without_index_column ex_df_a)) ∧
  (wf_frame ex_df_a →
   ∀ i j c, i < nrows ex_df_a → cols (without_index_column ex_df_a) !! j = Some c →
            cell (values (to_numpy (without_index_column ex_df_a))) i j =
              astype (sdtype c.2) (dtype (to_numpy (without_index_column ex_df_a)))
                <$> cells c.2 !! i) ∧
  (wf_frame ex_df_a →
   ∀ d, Forall (λ c, sdtype c.2 = d) (cols (without_index_column ex_df_a)) →
   ∀ i j c, i < nrows ex_df_a → cols (without_index_column ex_df_a) !! j = Some c →
            dtype (to_numpy (without_index_column ex_df_a)) = d ∧
            cell (values (to_numpy (without_index_column ex_df_a))) i j = cells c.2 !! i).
Proof.
  split; [vm_compute; reflexivity|].
  apply (loader_drops_unnamed_0 (stdout:=ex_stdout) ex_world
           (path_join ex_folder "a.csv") ex_df_a).
  vm_compute. reflexivity.
Defined.

(** C8, as stated, fails on a table whose first column is named and whose
    second column is labelled ['Unnamed: 0']: the loader drops the second
    column, so not all columns are kept. *)
Lemma loader_keeps_all_columns_counterexample :
  read_csv ex_world_c (path_join ex_folder "c.csv") = Ok ex_df_c ∧
  head (columns ex_df_c) = Some "ch1" ∧
  (load_csv_to_numpy (stdout:=ex_stdout) ex_world_c (path_join ex_folder "c.csv")).2 =
    Ok (Some (mk_nparray float64 (mk_ndarray [2; 1] [10; 20]%Z))) ∧
  (load_csv_to_numpy (stdout:=ex_stdout) ex_world_c (path_join ex_folder "c.csv")).2 ≠
    Ok (Some (to_numpy ex_df_c)).
Proof.
  split; [vm_compute; reflexivity|]. split; [reflexivity|].
  split; [vm_compute; reflexivity|]. vm_compute. discriminate.
Qed.


Lemma loader_result_is_table_witness :
  (load_csv_to_numpy (stdout:=ex_stdout) ex_world (path_join ex_folder "a.csv")).2 =
    Ok (Some (to_numpy (without_index_column ex_df_a))) ∧
  ∃ df, read_csv ex_world (path_join ex_folder "a.csv") = Ok df ∧
        load_csv_to_numpy (stdout:=ex_stdout) ex_world (path_join ex_folder "a.csv") =
          ([], Ok (Some (to_numpy (without_index_column ex_df_a)))) ∧
        shape (values (to_numpy (without_index_column ex_df_a))) =
          [nrows df; length (filter (λ l, l ≠ "Unnamed: 0") (columns df))] ∧
        wf_array (values (to_numpy (without_index_column ex_df_a))).
Proof.
  split; [vm_compute; reflexivity|].
  apply (loader_result_is_table (stdout:=ex_stdout) ex_world
           (path_join ex_folder "a.csv")).
  vm_compute. reflexivity.
Defined.

Lemma ex_world_error_lines (file : string) (e : exn) :
  file ∈ csv_files ex_names →
  read_csv ex_world (path_join ex_folder file) = Raise e →
  stdout_encodes (Stdout:=ex_stdout) (PErrorLoading (path_join ex_folder file) e) = true.
Proof. reflexivity. Defined.

(** The files of the first folder padded to 3 rows. *)
Lemma padding_loop_pads_witness :
  ∃ array_list,
    create_3d_array_loop (stdout:=ex_stdout) ex_world ex_folder (csv_files ex_names) 3 [] =
      (error_lines ex_world ex_folder (csv_files ex_names), Ok array_list) ∧
    Forall2 (λ T P,
               dtype P = dtype T ∧
               ∃ R C, shape (values T) = [R; C] ∧
                      shape (values P) = [R `max` Z.to_nat 3; C] ∧
                      data (values P) =
                        data (values T) ++
                        replicate ((R `max` Z.to_nat 3 - R) * C) (zero_of (dtype T)))
            (loaded_tables ex_world ex_folder (csv_files ex_names)) array_list ∧
    (∀ C, Forall (λ T, ∃ R, shape (values T) = [R; C] ∧ (Z.of_nat R ≤ 3)%Z)
                 (loaded_tables ex_world ex_folder (csv_files ex_names)) →
          Forall (λ P, shape (values P) = [Z.to_nat 3; C]) array_list).
Proof.
  apply (padding_loop_pads (stdout:=ex_stdout) ex_world ex_folder (csv_files ex_names) 3).
  exact ex_world_error_lines.
Defined.

(** A table of the shape (2, 2) and a table of the shape (1, 1). *)
Lemma stack_array_list_mismatch_witness :
  shape (values ex_f1) ≠ shape (values ex_int_table) ∧
  stack_array_list (stdout:=ex_stdout) ex_folder [ex_f1; ex_int_table] =
    ([], Raise ValueError).
Proof.
  assert (shape (values ex_f1) ≠ shape (values ex_int_table)) as Hne by discriminate.
  split; [exact Hne|].
  apply (stack_array_list_mismatch (stdout:=ex_stdout) ex_folder [ex_f1; ex_int_table]
           ex_f1 ex_int_table); [by left|by right; left|exact Hne].
Defined.
